(** * BinomialVanillaEngine_2: a binomial-lattice engine for vanilla options

    Shallow embedding of [src/project3/binomialengine.hpp].

    - [Real] is the C++ [double]: Rocq's primitive binary64 floats, so every
      arithmetic expression of the engine is evaluated with the rounding (and
      the infinities and NaNs) the compiled code has.
    - [QL_REQUIRE] and [QL_ENSURE] throw; a throwing call keeps the state it
      had reached.  The engine is therefore a function into a small
      state-and-error monad over its mutable [results_].
    - The objects the engine only queries or constructs (term structures, the
      tree class [T] it is instantiated with, the closed-form theta helper)
      are collaborators: queries of the market data are total functions,
      and each call that builds or rolls a lattice is recorded, with its
      arguments, in a trace kept beside [results_]. *)

From Stdlib Require Import Floats ZArith NArith List String Bool Lia.
From Stdlib Require Import DecimalString.
Import ListNotations.

Local Open Scope string_scope.
Local Open Scope list_scope.

(** ** Scalars *)

Definition Real := float.
Definition Time := float.
Definition Rate := float.
Definition Volatility := float.

Bind Scope float_scope with Real Time Rate Volatility.

(** [Size] is [std::size_t]; the engine never does arithmetic on it. *)
Definition Size := N.

Bind Scope N_scope with Size.

(** A [Date] is its serial number. *)
Definition Date := Z.

(** ** Market data, as far as the engine reads it *)

Record DayCounter := mkDayCounter {
  dc_name : string;
  yearFraction : Date -> Date -> Time
}.

Record Calendar := mkCalendar { cal_name : string }.

Inductive Compounding := Simple | Compounded | Continuous | SimpleThenCompounded.

Inductive Frequency := NoFrequency | Once | Annual | Semiannual | Quarterly | Monthly.

Record Quote := mkQuote { quote_value : Real }.

Record YieldTermStructure := mkYieldTermStructure {
  yts_dayCounter : DayCounter;
  yts_referenceDate : Date;
  zeroRate : Date -> DayCounter -> Compounding -> Frequency -> Rate
}.

Record BlackVolTermStructure := mkBlackVolTermStructure {
  vol_dayCounter : DayCounter;
  vol_calendar : Calendar;
  blackVol : Date -> Real -> Volatility
}.

Record GeneralizedBlackScholesProcess := mkProcess {
  stateVariable : Quote;
  dividendYield : YieldTermStructure;
  riskFreeRate : YieldTermStructure;
  blackVolatility : BlackVolTermStructure
}.

(** ** The constant-coefficient objects the engine constructs

    Each is the record of its constructor's arguments, in the constructor's
    order. *)

Record FlatForward := mkFlatForward {
  ff_referenceDate : Date;
  ff_forward : Rate;
  ff_dayCounter : DayCounter
}.

Record BlackConstantVol := mkBlackConstantVol {
  bcv_referenceDate : Date;
  bcv_calendar : Calendar;
  bcv_volatility : Volatility;
  bcv_dayCounter : DayCounter
}.

(** The process [bs] handed to the tree: the live quote with the three flat
    curves. *)
Record FlatProcess := mkFlatProcess {
  bs_stateVariable : Quote;
  bs_dividendYield : FlatForward;
  bs_riskFreeRate : FlatForward;
  bs_blackVolatility : BlackConstantVol
}.

(** ** Instrument arguments *)

Record PlainVanillaPayoff := mkPlainVanillaPayoff {
  strike : Real;
  plain_evaluate : Real -> Real
}.

(** [arguments_.payoff] points to some payoff; only a [PlainVanillaPayoff]
    survives the engine's downcast. *)
Inductive Payoff :=
| Plain (p : PlainVanillaPayoff)
| NonPlain (evaluate : Real -> Real).

Definition dynamic_pointer_cast (p : Payoff) : option PlainVanillaPayoff :=
  match p with
  | Plain pv => Some pv
  | NonPlain _ => None
  end.

Definition payoff_evaluate (p : Payoff) : Real -> Real :=
  match p with
  | Plain pv => plain_evaluate pv
  | NonPlain f => f
  end.

Record Exercise := mkExercise {
  lastDate : Date;
  earlyExercise : bool
}.

Record Arguments := mkArguments {
  payoff : Payoff;
  exercise : Exercise
}.

(** ** Results *)

Record Results := mkResults {
  value : Real;
  delta : Real;
  gamma : Real;
  theta : Real
}.

(** ** Errors

    Both macros throw the library's one error class; the macro that threw is
    kept to tell a violated precondition from a violated internal
    expectation. *)

Inductive Check := Require | Ensure.

Record Error := mkError {
  err_check : Check;
  err_message : string
}.

Inductive Outcome (A : Type) :=
| Ok (a : A)
| Throw (e : Error).

Arguments Ok {A} a.
Arguments Throw {A} e.

(** ** Lattice objects *)

Record TimeGrid := mkTimeGrid {
  tg_end : Time;
  tg_steps : Size
}.

(** What the lattice uses of a tree of class [T]: the number of nodes of a
    step, the underlying at a node, and the probability of the up branch. *)
Record Tree := mkTree {
  size : nat -> nat;
  underlying : nat -> nat -> Real;
  probability : nat -> nat -> Real
}.

Record BlackScholesLattice := mkLattice {
  lat_tree : Tree;
  discount : nat -> Real
}.

Definition lat_size (l : BlackScholesLattice) : nat -> nat := size (lat_tree l).

Definition lat_underlying (l : BlackScholesLattice) : nat -> nat -> Real :=
  underlying (lat_tree l).

(** ** Trace of lattice work *)

Inductive Event :=
| EvTimeGrid (maturity : Time) (steps : Size)
| EvTree (bs : FlatProcess) (maturity : Time) (steps : Size) (k : Real)
| EvLattice (r : Rate) (maturity : Time) (steps : Size)
| EvInitialize (t : Time)
| EvRollback (t : Time)
| EvTheta (v d g : Real).

Definition is_tree_build (ev : Event) : bool :=
  match ev with EvTree _ _ _ _ => true | _ => false end.

Definition is_rollback (ev : Event) : bool :=
  match ev with EvRollback _ => true | _ => false end.

(** ** The engine's monad *)

Record EngineState := mkState {
  results_ : Results;
  trace : list Event
}.

Definition M (A : Type) : Type := EngineState -> Outcome A * EngineState.

Definition ret {A} (a : A) : M A := fun st => (Ok a, st).

Definition bind {A B} (m : M A) (k : A -> M B) : M B :=
  fun st =>
    match m st with
    | (Ok a, st') => k a st'
    | (Throw e, st') => (Throw e, st')
    end.

Notation "x <- m ;; k" := (bind m (fun x => k))
  (at level 61, m at next level, right associativity).
Notation "m ;; k" := (bind m (fun _ => k))
  (at level 61, right associativity).

Definition throw {A} (c : Check) (msg : string) : M A :=
  fun st => (Throw (mkError c msg), st).

Definition QL_REQUIRE (cond : bool) (msg : string) : M unit :=
  if cond then ret tt else throw Require msg.

Definition QL_ENSURE (cond : bool) (msg : string) : M unit :=
  if cond then ret tt else throw Ensure msg.

Definition emit (ev : Event) : M unit :=
  fun st => (Ok tt, mkState (results_ st) (trace st ++ [ev])).

Definition get_results : M Results := fun st => (Ok (results_ st), st).

Definition set_value (x : Real) : M unit :=
  fun st =>
    let r := results_ st in
    (Ok tt, mkState (mkResults x (delta r) (gamma r) (theta r)) (trace st)).

Definition set_delta (x : Real) : M unit :=
  fun st =>
    let r := results_ st in
    (Ok tt, mkState (mkResults (value r) x (gamma r) (theta r)) (trace st)).

Definition set_gamma (x : Real) : M unit :=
  fun st =>
    let r := results_ st in
    (Ok tt, mkState (mkResults (value r) (delta r) x (theta r)) (trace st)).

Definition set_theta (x : Real) : M unit :=
  fun st =>
    let r := results_ st in
    (Ok tt, mkState (mkResults (value r) (delta r) (gamma r) x) (trace st)).

(** ** The engine object and its constructor *)

Record Engine := mkEngine {
  process_ : GeneralizedBlackScholesProcess;
  timeSteps_ : Size
}.

Definition show_Size (n : Size) : string :=
  NilEmpty.string_of_uint (N.to_uint n).

(** The constructor: the members are initialised, then the step count is
    checked; the message streams the count in decimal.  The registration
    with the process that follows the check only concerns observers. *)
Definition BinomialVanillaEngine_2
    (process : GeneralizedBlackScholesProcess) (timeSteps : Size)
  : Outcome Engine :=
  if (2 <=? timeSteps)%N
  then Ok (mkEngine process timeSteps)
  else Throw (mkError Require
         ("at least 2 time steps required, " ++ show_Size timeSteps
          ++ " provided")%string).

(** ** The discretized option and its rollback

    The lattice classes included by the engine are not part of the engine's
    file.  The engine only needs, of the rolled-back option, the vector of
    node values it reads at time 0. *)

Definition fmax (a b : Real) : Real := if (a <? b)%float then b else a.

Record DiscretizedVanillaOption := mkOption {
  opt_arguments : Arguments;
  opt_grid : TimeGrid;
  opt_step : nat;
  opt_values : list Real
}.

(** Modelled from the spec: [DiscretizedVanillaOption::initialize], declared in
    the included discretizedvanillaoption.hpp and missing from src/.  It sets
    the step to N, the final step of the grid, and gives every node j of that
    step the payoff of the underlying price at (N, j). *)
Definition initialize (o : DiscretizedVanillaOption) (l : BlackScholesLattice)
  : DiscretizedVanillaOption :=
  let n := N.to_nat (tg_steps (opt_grid o)) in
  let f := payoff_evaluate (payoff (opt_arguments o)) in
  mkOption (opt_arguments o) (opt_grid o) n
           (map (fun j => f (lat_underlying l n j)) (seq 0 (lat_size l n))).

(** Modelled from the spec: the continuation value of node j of step k, from
    the values of step k+1 (the lattice's stepback, missing from src/):
    discountFactor(k) * (p * value[j+1] + (1 - p) * value[j]). *)
Definition continuation (l : BlackScholesLattice) (k : nat) (vals : list Real)
    (j : nat) : Real :=
  let p := probability (lat_tree l) k j in
  (discount l k * (p * nth (S j) vals 0 + (1 - p) * nth j vals 0))%float.

(** Modelled from the spec: one backward step onto step k (missing from
    src/).  Every node of step k gets its continuation value, replaced by the
    larger of it and the immediate payoff when exercise is permitted. *)
Definition stepBack (l : BlackScholesLattice) (f : Real -> Real) (ex : bool)
    (k : nat) (vals : list Real) : list Real :=
  map (fun j =>
         let c := continuation l k vals j in
         if ex then fmax c (f (lat_underlying l k j)) else c)
      (seq 0 (lat_size l k)).

(** Modelled from the spec: backward steps from step k down to step 0. *)
Fixpoint rollback_from (l : BlackScholesLattice) (f : Real -> Real) (ex : bool)
    (k : nat) (vals : list Real) : list Real :=
  match k with
  | O => vals
  | S k' => rollback_from l f ex k' (stepBack l f ex k' vals)
  end.

(** Modelled from the spec: [DiscretizedVanillaOption::rollback] to time 0,
    the first point of the grid (missing from src/). *)
Definition rollback (o : DiscretizedVanillaOption) (l : BlackScholesLattice)
  : DiscretizedVanillaOption :=
  let f := payoff_evaluate (payoff (opt_arguments o)) in
  let ex := earlyExercise (exercise (opt_arguments o)) in
  mkOption (opt_arguments o) (opt_grid o) 0
           (rollback_from l f ex (opt_step o) (opt_values o)).

(** Modelled from the spec: the node count of the trees this engine is meant
    to be instantiated with (the tree class is a template argument, missing
    from src/).  The lattice recombines, so each step has one node more than
    the step before it, and the grid starts early enough that step 0 has
    exactly 3 nodes (down, mid, up) rather than 1. *)
Definition nodeCount (k : nat) : nat := k + 3.

(** Modelled from the spec: a tree class re-gridded to [nodeCount]; prices
    and probabilities stay those of the pluggable strategy. *)
Definition threePointTree (t : Tree) : Tree :=
  mkTree nodeCount (underlying t) (probability t).

(** Modelled from the spec: the tree class the engine is instantiated with,
    re-gridded in the same way whatever it is constructed from. *)
Definition threePointClass (T0 : FlatProcess -> Time -> Size -> Real -> Tree)
  : FlatProcess -> Time -> Size -> Real -> Tree :=
  fun bs maturity steps k => threePointTree (T0 bs maturity steps k).

(** Every backward step from step [k] down reads, for each node j it
    fills, entries j and j+1 of a vector that has them. *)
Fixpoint reads_in_range (l : BlackScholesLattice) (f : Real -> Real)
    (ex : bool) (k : nat) (vals : list Real) : Prop :=
  match k with
  | O => True
  | S k' =>
      lat_size l k' < List.length vals /\
      reads_in_range l f ex k' (stepBack l f ex k' vals)
  end.

(** ** calculate *)

Definition require_ptr {A} (p : option A) (msg : string) : M A :=
  match p with
  | Some a => ret a
  | None => throw Require msg
  end.

Section Calculate.

(** The template argument: the constructor of the tree class [T]. *)
Variable T : FlatProcess -> Time -> Size -> Real -> Tree.

(** The one-step discount factors [BlackScholesLattice] derives from the
    rate, the maturity and the step count. *)
Variable discountFactor : Rate -> Time -> Size -> nat -> Real.

(** The closed-form theta helper of the included greeks.hpp. *)
Variable blackScholesTheta :
  GeneralizedBlackScholesProcess -> Real -> Real -> Real -> Real.

Definition new_TimeGrid (maturity : Time) (steps : Size) : M TimeGrid :=
  emit (EvTimeGrid maturity steps) ;; ret (mkTimeGrid maturity steps).

Definition new_T (bs : FlatProcess) (maturity : Time) (steps : Size)
    (k : Real) : M Tree :=
  emit (EvTree bs maturity steps k) ;; ret (T bs maturity steps k).

Definition new_BlackScholesLattice (tree : Tree) (r : Rate) (maturity : Time)
    (steps : Size) : M BlackScholesLattice :=
  emit (EvLattice r maturity steps) ;;
  ret (mkLattice tree (discountFactor r maturity steps)).

Definition option_initialize (o : DiscretizedVanillaOption)
    (l : BlackScholesLattice) (t : Time) : M DiscretizedVanillaOption :=
  emit (EvInitialize t) ;; ret (initialize o l).

Definition option_rollback (o : DiscretizedVanillaOption)
    (l : BlackScholesLattice) (t : Time) : M DiscretizedVanillaOption :=
  emit (EvRollback t) ;; ret (rollback o l).

Definition call_blackScholesTheta (p : GeneralizedBlackScholesProcess)
    (v d g : Real) : M Real :=
  emit (EvTheta v d g) ;; ret (blackScholesTheta p v d g).

(** The flat process [bs] of lines 96-115, for a volatility [v] and rates
    [r] and [q] already sampled. *)
Definition flat_process (p : GeneralizedBlackScholesProcess)
    (referenceDate : Date) (r q : Rate) (v : Volatility)
    (rfdc divdc voldc : DayCounter) (volcal : Calendar) : FlatProcess :=
  let flatRiskFree := mkFlatForward referenceDate r rfdc in
  let flatDividends := mkFlatForward referenceDate q divdc in
  let flatVol := mkBlackConstantVol referenceDate volcal v voldc in
  mkFlatProcess (stateVariable p) flatDividends flatRiskFree flatVol.

Definition calculate (e : Engine) (arguments_ : Arguments) : M unit :=
  let rfdc := yts_dayCounter (riskFreeRate (process_ e)) in
  let divdc := yts_dayCounter (dividendYield (process_ e)) in
  let voldc := vol_dayCounter (blackVolatility (process_ e)) in
  let volcal := vol_calendar (blackVolatility (process_ e)) in
  let s0 := quote_value (stateVariable (process_ e)) in
  QL_REQUIRE (0 <? s0)%float "negative or null underlying given" ;;
  let v := blackVol (blackVolatility (process_ e))
                    (lastDate (exercise arguments_)) s0 in
  let maturityDate := lastDate (exercise arguments_) in
  let r := zeroRate (riskFreeRate (process_ e)) maturityDate rfdc
                    Continuous NoFrequency in
  let q := zeroRate (dividendYield (process_ e)) maturityDate divdc
                    Continuous NoFrequency in
  let referenceDate := yts_referenceDate (riskFreeRate (process_ e)) in
  payoff <- require_ptr (dynamic_pointer_cast (payoff arguments_))
                        "non-plain payoff given" ;;
  let maturity := yearFraction rfdc referenceDate maturityDate in
  let bs := flat_process (process_ e) referenceDate r q v
                         rfdc divdc voldc volcal in
  grid <- new_TimeGrid maturity (timeSteps_ e) ;;
  tree <- new_T bs maturity (timeSteps_ e) (strike payoff) ;;
  lattice <- new_BlackScholesLattice tree r maturity (timeSteps_ e) ;;
  let option := mkOption arguments_ grid 0 [] in
  option <- option_initialize option lattice maturity ;;
  option <- option_rollback option lattice 0%float ;;
  let va := opt_values option in
  QL_ENSURE (Nat.eqb (List.length va) 3) "Expect 3 nodes in grid at 0 step" ;;
  let p0u := nth 2 va 0%float in
  let p0 := nth 1 va 0%float in
  let p0d := nth 0 va 0%float in
  let s0u := lat_underlying lattice 0 2 in
  let s0d := lat_underlying lattice 0 0 in
  let delta_ := ((p0u - p0d) / (s0u - s0d))%float in
  let delta0u := ((p0u - p0) / (s0u - s0))%float in
  let delta0d := ((p0d - p0) / (s0d - s0))%float in
  let gamma_ := ((delta0u - delta0d) / ((s0u - s0d) / 2))%float in
  set_value p0 ;;
  set_delta delta_ ;;
  set_gamma gamma_ ;;
  rs <- get_results ;;
  th <- call_blackScholesTheta (process_ e) (value rs) (delta rs) (gamma rs) ;;
  set_theta th.

(** *** What a call builds, named

    The quantities [calculate] computes on the way, as functions of the
    engine and the arguments; [calculate_unfold] below shows they are the
    ones of the call. *)

Definition spot (e : Engine) : Real :=
  quote_value (stateVariable (process_ e)).

Definition sampled_vol (e : Engine) (a : Arguments) : Volatility :=
  blackVol (blackVolatility (process_ e)) (lastDate (exercise a)) (spot e).

Definition sampled_r (e : Engine) (a : Arguments) : Rate :=
  zeroRate (riskFreeRate (process_ e)) (lastDate (exercise a))
           (yts_dayCounter (riskFreeRate (process_ e))) Continuous NoFrequency.

Definition sampled_q (e : Engine) (a : Arguments) : Rate :=
  zeroRate (dividendYield (process_ e)) (lastDate (exercise a))
           (yts_dayCounter (dividendYield (process_ e))) Continuous NoFrequency.

Definition engine_maturity (e : Engine) (a : Arguments) : Time :=
  yearFraction (yts_dayCounter (riskFreeRate (process_ e)))
               (yts_referenceDate (riskFreeRate (process_ e)))
               (lastDate (exercise a)).

Definition engine_bs (e : Engine) (a : Arguments) : FlatProcess :=
  flat_process (process_ e)
               (yts_referenceDate (riskFreeRate (process_ e)))
               (sampled_r e a) (sampled_q e a) (sampled_vol e a)
               (yts_dayCounter (riskFreeRate (process_ e)))
               (yts_dayCounter (dividendYield (process_ e)))
               (vol_dayCounter (blackVolatility (process_ e)))
               (vol_calendar (blackVolatility (process_ e))).

Definition engine_lattice (e : Engine) (a : Arguments)
    (pv : PlainVanillaPayoff) : BlackScholesLattice :=
  mkLattice (T (engine_bs e a) (engine_maturity e a) (timeSteps_ e) (strike pv))
            (discountFactor (sampled_r e a) (engine_maturity e a) (timeSteps_ e)).

(** The node values read after the rollback to time 0. *)
Definition engine_values (e : Engine) (a : Arguments)
    (pv : PlainVanillaPayoff) : list Real :=
  let l := engine_lattice e a pv in
  let o := mkOption a (mkTimeGrid (engine_maturity e a) (timeSteps_ e)) 0 [] in
  opt_values (rollback (initialize o l) l).

Definition lattice_events (e : Engine) (a : Arguments)
    (pv : PlainVanillaPayoff) : list Event :=
  [ EvTimeGrid (engine_maturity e a) (timeSteps_ e);
    EvTree (engine_bs e a) (engine_maturity e a) (timeSteps_ e) (strike pv);
    EvLattice (sampled_r e a) (engine_maturity e a) (timeSteps_ e);
    EvInitialize (engine_maturity e a);
    EvRollback 0%float ].

(** The caller's sequence: construct the engine, then price with it. *)
Definition construct_then_calculate (p : GeneralizedBlackScholesProcess)
    (timeSteps : Size) (a : Arguments) : M unit :=
  match BinomialVanillaEngine_2 p timeSteps with
  | Ok e => calculate e a
  | Throw err => fun st => (Throw err, st)
  end.

End Calculate.

(** ** The formulas of the specification

    Written from the specification's section on the extraction of the
    sensitivities, to be compared with what [calculate] stores. *)

Definition spec_delta (p0d p0u s0d s0u : Real) : Real :=
  ((p0u - p0d) / (s0u - s0d))%float.

Definition spec_gamma (p0d p0 p0u s0d s0 s0u : Real) : Real :=
  let delta_up := ((p0u - p0) / (s0u - s0))%float in
  let delta_down := ((p0d - p0) / (s0d - s0))%float in
  ((delta_up - delta_down) / ((s0u - s0d) / 2))%float.

(** ** Sample inputs *)

Fixpoint fpow (x : Real) (n : nat) : Real :=
  match n with
  | O => 1%float
  | S n' => (x * fpow x n')%float
  end.

(** A recombining tree with constant factors whose root lies two steps
    before time 0: step i has i + 3 nodes, node j of step i having gone up j
    times out of i + 2. *)
Definition earlyRootTree (up down p : Real)
    (bs : FlatProcess) (maturity : Time) (steps : Size) (k : Real) : Tree :=
  mkTree (fun i => i + 3)
         (fun i j => (quote_value (bs_stateVariable bs)
                      * (fpow down (i + 2 - j) * fpow up j))%float)
         (fun _ _ => p).

(** The same tree rooted at time 0: step i has i + 1 nodes. *)
Definition rootedTree (up down p : Real)
    (bs : FlatProcess) (maturity : Time) (steps : Size) (k : Real) : Tree :=
  mkTree (fun i => i + 1)
         (fun i j => (quote_value (bs_stateVariable bs)
                      * (fpow down (i - j) * fpow up j))%float)
         (fun _ _ => p).

Definition sample_dayCounter : DayCounter :=
  mkDayCounter "one year" (fun _ _ => 1%float).

Definition sample_calendar : Calendar := mkCalendar "every day".

Definition sample_curve (r : Rate) : YieldTermStructure :=
  mkYieldTermStructure sample_dayCounter 0%Z (fun _ _ _ _ => r).

(** A volatility surface with a smile: the volatility depends on the strike
    it is asked at. *)
Definition sample_smile : BlackVolTermStructure :=
  mkBlackVolTermStructure sample_dayCounter sample_calendar
                          (fun _ k => (k / 512)%float).

Definition sample_process (s : Real) : GeneralizedBlackScholesProcess :=
  mkProcess (mkQuote s) (sample_curve 0%float) (sample_curve 0.0625%float)
            sample_smile.

Definition sample_call (k : Real) : PlainVanillaPayoff :=
  mkPlainVanillaPayoff k (fun s => fmax (s - k) 0)%float.

Definition sample_arguments : Arguments :=
  mkArguments (Plain (sample_call 96%float)) (mkExercise 365%Z false).

(** A payoff of another class (it pays the square of the underlying). *)
Definition sample_nonplain_arguments : Arguments :=
  mkArguments (NonPlain (fun s => (s * s)%float)) (mkExercise 365%Z false).

Definition sample_discount (r : Rate) (maturity : Time) (steps : Size)
    (i : nat) : Real := 0.5%float.

Definition sample_theta (p : GeneralizedBlackScholesProcess)
    (v d g : Real) : Real :=
  let u := quote_value (stateVariable p) in
  (v - u * d - u * u * g)%float.

Definition sample_engine (s : Real) (n : Size) : Engine :=
  mkEngine (sample_process s) n.

(** Results as the caller resets them before a calculation:
    [Null<Real>()], the largest single-precision number. *)
Definition Null_Real : Real := 0x1.fffffep+127%float.

Definition initial_state : EngineState :=
  mkState (mkResults Null_Real Null_Real Null_Real Null_Real) [].


(** The sample call: two steps on a tree centred on the spot
    (up * down = 1). *)
Definition sample_run : Outcome unit * EngineState :=
  calculate (earlyRootTree 2 0.5 0.5) sample_discount sample_theta
            (sample_engine 100 2) sample_arguments initial_state.

(** The same call on a tree whose mid node at time 0 is not at the spot
    (up * down = 1/2). *)
Definition skewed_run : Outcome unit * EngineState :=
  calculate (earlyRootTree 2 0.25 0.5) sample_discount sample_theta
            (sample_engine 100 2) sample_arguments initial_state.

(** The same call on the tree rooted at time 0. *)
Definition rooted_run : Outcome unit * EngineState :=
  calculate (rootedTree 2 0.5 0.5) sample_discount sample_theta
            (sample_engine 100 2) sample_arguments initial_state.

(** ** Two statements the code does not satisfy as they stand *)

(** Gamma with the mid price read from the lattice's node (0, 1). *)
Definition gamma_from_mid_node_price
    (T : FlatProcess -> Time -> Size -> Real -> Tree)
    (dF : Rate -> Time -> Size -> nat -> Real)
    (th : GeneralizedBlackScholesProcess -> Real -> Real -> Real -> Real)
  : Prop :=
  forall e a st st' pv,
    calculate T dF th e a st = (Ok tt, st') ->
    payoff a = Plain pv ->
    let va := engine_values T dF e a pv in
    let l := engine_lattice T dF e a pv in
    gamma (results_ st')
    = spec_gamma (nth 0 va 0%float) (nth 1 va 0%float) (nth 2 va 0%float)
                 (lat_underlying l 0 0) (lat_underlying l 0 1)
                 (lat_underlying l 0 2).

(** Every call with a payoff of another class reports that payoff. *)
Definition nonplain_always_reported
    (T : FlatProcess -> Time -> Size -> Real -> Tree)
    (dF : Rate -> Time -> Size -> nat -> Real)
    (th : GeneralizedBlackScholesProcess -> Real -> Real -> Real -> Real)
  : Prop :=
  forall e a st,
    dynamic_pointer_cast (payoff a) = None ->
    exists st',
      calculate T dF th e a st
      = (Throw (mkError Require "non-plain payoff given"), st').

(** ** What the engine sees of the market *)

(** A double that is a zero or a finite non-zero number: neither an
    infinity nor a NaN. *)
Definition is_finite_double (x : Real) : bool :=
  match Prim2SF x with
  | S754_zero _ | S754_finite _ _ _ => true
  | S754_infinity _ | S754_nan => false
  end.

(** Two engines read the same things off their processes for the arguments
    [a]: the quote, the step count, the day counters, the calendar, the
    risk-free reference date, and the three numbers sampled at lines 86-92. *)
Definition same_flat_view (e1 e2 : Engine) (a : Arguments) : Prop :=
  stateVariable (process_ e1) = stateVariable (process_ e2) /\
  timeSteps_ e1 = timeSteps_ e2 /\
  yts_dayCounter (riskFreeRate (process_ e1))
  = yts_dayCounter (riskFreeRate (process_ e2)) /\
  yts_dayCounter (dividendYield (process_ e1))
  = yts_dayCounter (dividendYield (process_ e2)) /\
  vol_dayCounter (blackVolatility (process_ e1))
  = vol_dayCounter (blackVolatility (process_ e2)) /\
  vol_calendar (blackVolatility (process_ e1))
  = vol_calendar (blackVolatility (process_ e2)) /\
  yts_referenceDate (riskFreeRate (process_ e1))
  = yts_referenceDate (riskFreeRate (process_ e2)) /\
  sampled_r e1 a = sampled_r e2 a /\
  sampled_q e1 a = sampled_q e2 a /\
  sampled_vol e1 a = sampled_vol e2 a.

(** A curve that is at [r] for the date 365 and at 1/2 for any other. *)
Definition sample_moving_curve (r : Rate) : YieldTermStructure :=
  mkYieldTermStructure sample_dayCounter 0%Z
    (fun d _ _ _ => if (d =? 365)%Z then r else 0.5%float).

(** A surface that is the sample smile at the date 365 and flat at 1
    elsewhere. *)
Definition sample_moving_smile : BlackVolTermStructure :=
  mkBlackVolTermStructure sample_dayCounter sample_calendar
    (fun d k => if (d =? 365)%Z then (k / 512)%float else 1%float).

Definition sample_moving_process (s : Real) : GeneralizedBlackScholesProcess :=
  mkProcess (mkQuote s) (sample_moving_curve 0%float)
            (sample_moving_curve 0.0625%float) sample_moving_smile.

(** The sample call on a tree whose nodes all sit at the spot
    (up = down = 1). *)
Definition degenerate_run : Outcome unit * EngineState :=
  calculate (earlyRootTree 1 1 0.5) sample_discount sample_theta
            (sample_engine 100 2) sample_arguments initial_state.

(** * Properties *)

(** ** The shape of a call *)

Section CalculateFacts.

Variable T : FlatProcess -> Time -> Size -> Real -> Tree.
Variable discountFactor : Rate -> Time -> Size -> nat -> Real.
Variable blackScholesTheta :
  GeneralizedBlackScholesProcess -> Real -> Real -> Real -> Real.

(** A call either stops at one of its three checks or stores the four
    results; the trace grows by the lattice work once both preconditions
    hold. *)
Lemma calculate_unfold (e : Engine) (a : Arguments) (st : EngineState) :
  calculate T discountFactor blackScholesTheta e a st =
  if (0 <? spot e)%float then
    match dynamic_pointer_cast (payoff a) with
    | None => (Throw (mkError Require "non-plain payoff given"), st)
    | Some pv =>
        let va := engine_values T discountFactor e a pv in
        let evs := lattice_events e a pv in
        if Nat.eqb (List.length va) 3 then
          let p0u := nth 2 va 0%float in
          let p0 := nth 1 va 0%float in
          let p0d := nth 0 va 0%float in
          let s0 := spot e in
          let s0u := lat_underlying (engine_lattice T discountFactor e a pv) 0 2 in
          let s0d := lat_underlying (engine_lattice T discountFactor e a pv) 0 0 in
          let d := ((p0u - p0d) / (s0u - s0d))%float in
          let g := (((p0u - p0) / (s0u - s0) - (p0d - p0) / (s0d - s0))
                    / ((s0u - s0d) / 2))%float in
          (Ok tt,
           mkState (mkResults p0 d g (blackScholesTheta (process_ e) p0 d g))
                   (trace st ++ evs ++ [EvTheta p0 d g]))
        else
          (Throw (mkError Ensure "Expect 3 nodes in grid at 0 step"),
           mkState (results_ st) (trace st ++ evs))
    end
  else (Throw (mkError Require "negative or null underlying given"), st).
Proof.
  unfold calculate, spot.
  cbv beta zeta delta [bind QL_REQUIRE].
  destruct (0 <? quote_value (stateVariable (process_ e)))%float; [| reflexivity].
  cbv beta iota zeta delta [ret require_ptr throw].
  destruct (dynamic_pointer_cast (payoff a)) as [pv|]; [| reflexivity].
  cbv beta iota zeta delta
    [bind ret throw QL_ENSURE emit new_TimeGrid new_T new_BlackScholesLattice
     option_initialize option_rollback call_blackScholesTheta
     get_results set_value set_delta set_gamma set_theta
     results_ trace value delta gamma theta].
  fold (spot e).
  change (opt_values _) with (engine_values T discountFactor e a pv).
  destruct (Nat.eqb _ 3).
  - cbv beta iota zeta. unfold lattice_events.
    repeat rewrite <- app_assoc. reflexivity.
  - cbv beta iota zeta. unfold lattice_events.
    repeat rewrite <- app_assoc. reflexivity.
Qed.

(** A call that returns has passed the three checks and stored this. *)
Lemma calculate_ok_inv (e : Engine) (a : Arguments) (st st' : EngineState) :
  calculate T discountFactor blackScholesTheta e a st = (Ok tt, st') ->
  exists pv,
    payoff a = Plain pv /\
    (0 <? spot e)%float = true /\
    List.length (engine_values T discountFactor e a pv) = 3 /\
    let va := engine_values T discountFactor e a pv in
    let p0u := nth 2 va 0%float in
    let p0 := nth 1 va 0%float in
    let p0d := nth 0 va 0%float in
    let s0 := spot e in
    let s0u := lat_underlying (engine_lattice T discountFactor e a pv) 0 2 in
    let s0d := lat_underlying (engine_lattice T discountFactor e a pv) 0 0 in
    let d := ((p0u - p0d) / (s0u - s0d))%float in
    let g := (((p0u - p0) / (s0u - s0) - (p0d - p0) / (s0d - s0))
              / ((s0u - s0d) / 2))%float in
    st' = mkState (mkResults p0 d g (blackScholesTheta (process_ e) p0 d g))
                  (trace st ++ lattice_events e a pv ++ [EvTheta p0 d g]).
Proof.
  intros Hc. rewrite calculate_unfold in Hc.
  destruct (0 <? spot e)%float; [| discriminate Hc].
  destruct (payoff a) as [pv | other] eqn:Hp; cbn [dynamic_pointer_cast] in Hc;
    [| discriminate Hc].
  cbv zeta in Hc.
  destruct (Nat.eqb (List.length (engine_values T discountFactor e a pv)) 3) eqn:Hlen;
    [| discriminate Hc].
  exists pv. repeat split.
  - now apply Nat.eqb_eq.
  - cbv zeta. now inversion Hc.
Qed.

(** A call that throws has stored nothing. *)
Lemma calculate_throw_inv (e : Engine) (a : Arguments) (st st' : EngineState)
    (err : Error) :
  calculate T discountFactor blackScholesTheta e a st = (Throw err, st') ->
  results_ st' = results_ st /\
  ((err_check err = Require /\ st' = st) \/
   (err_check err = Ensure /\
    exists pv, payoff a = Plain pv /\
               List.length (engine_values T discountFactor e a pv) <> 3 /\
               trace st' = trace st ++ lattice_events e a pv)).
Proof.
  intros Hc. rewrite calculate_unfold in Hc.
  destruct (0 <? spot e)%float.
  - destruct (payoff a) as [pv | other] eqn:Hp;
      cbn [dynamic_pointer_cast] in Hc.
    + cbv zeta in Hc.
      destruct (Nat.eqb (List.length (engine_values T discountFactor e a pv)) 3) eqn:Hlen;
        [discriminate Hc |].
      inversion Hc; subst; clear Hc. split; [reflexivity |].
      right. split; [reflexivity |]. exists pv.
      repeat split. now apply Nat.eqb_neq.
    + inversion Hc; subst. split; [reflexivity | left; now split].
  - inversion Hc; subst. split; [reflexivity | left; now split].
Qed.

End CalculateFacts.

(** ** The rollback keeps the vector as long as the step is wide *)

Section RollbackFacts.

Variable l : BlackScholesLattice.
Variable f : Real -> Real.
Variable ex : bool.

Lemma stepBack_length (k : nat) (vals : list Real) :
  List.length (stepBack l f ex k vals) = lat_size l k.
Proof. unfold stepBack. now rewrite length_map, length_seq. Qed.

Lemma rollback_from_length (k : nat) :
  forall vals,
    List.length vals = lat_size l k ->
    List.length (rollback_from l f ex k vals) = lat_size l 0.
Proof.
  induction k as [|k IH]; intros vals Hlen; simpl.
  - exact Hlen.
  - apply IH, stepBack_length.
Qed.

Lemma initialize_length (o : DiscretizedVanillaOption) :
  List.length (opt_values (initialize o l))
  = lat_size l (opt_step (initialize o l)).
Proof. unfold initialize; simpl. now rewrite length_map, length_seq. Qed.

Lemma rollback_initialize_length (o : DiscretizedVanillaOption) :
  payoff_evaluate (payoff (opt_arguments o)) = f ->
  earlyExercise (exercise (opt_arguments o)) = ex ->
  List.length (opt_values (rollback (initialize o l) l)) = lat_size l 0.
Proof.
  intros Hf Hex. unfold rollback.
  cbn [opt_values]. cbn [initialize opt_arguments].
  rewrite Hf, Hex.
  apply rollback_from_length, initialize_length.
Qed.

(** On a lattice whose steps grow by one node, no backward step reads
    past the end of the vector it is given. *)
Lemma growing_reads_in_range (k : nat) :
  (forall i, lat_size l (S i) = S (lat_size l i)) ->
  forall vals,
    List.length vals = lat_size l k ->
    reads_in_range l f ex k vals.
Proof.
  intros Hgrow.
  induction k as [|k IH]; intros vals Hlen; simpl; [exact I|].
  split.
  - rewrite Hlen, Hgrow. apply Nat.lt_succ_diag_r.
  - apply IH, stepBack_length.
Qed.

End RollbackFacts.

Lemma engine_values_length T dF (e : Engine) (a : Arguments)
    (pv : PlainVanillaPayoff) :
  List.length (engine_values T dF e a pv)
  = lat_size (engine_lattice T dF e a pv) 0.
Proof.
  unfold engine_values; cbv zeta.
  now apply rollback_initialize_length
    with (f := payoff_evaluate (payoff a)) (ex := earlyExercise (exercise a)).
Qed.

Lemma threePointClass_size T0 dF (e : Engine) (a : Arguments)
    (pv : PlainVanillaPayoff) (i : nat) :
  lat_size (engine_lattice (threePointClass T0) dF e a pv) i = nodeCount i.
Proof. reflexivity. Qed.

(** ** Three nodes at time 0 *)

(** C1.  With a tree class on the grid of the specification, an engine
    accepted with N >= 2 steps reads exactly 3 node values after the rollback
    to time 0, its call never throws the 3-node expectation, no backward
    step reads outside its vector, and the call returns once the spot is
    positive and the payoff plain. *)
Theorem three_nodes_at_time_zero
    (T0 : FlatProcess -> Time -> Size -> Real -> Tree)
    (dF : Rate -> Time -> Size -> nat -> Real)
    (th : GeneralizedBlackScholesProcess -> Real -> Real -> Real -> Real)
    (p : GeneralizedBlackScholesProcess) (timeSteps : Size)
    (a : Arguments) (st : EngineState) :
  (2 <= timeSteps)%N ->
  exists e,
    BinomialVanillaEngine_2 p timeSteps = Ok e /\
    timeSteps_ e = timeSteps /\
    (forall pv,
        List.length (engine_values (threePointClass T0) dF e a pv) = 3) /\
    (forall pv,
        let l := engine_lattice (threePointClass T0) dF e a pv in
        let o := mkOption a (mkTimeGrid (engine_maturity e a) timeSteps) 0 [] in
        reads_in_range l (payoff_evaluate (payoff a))
                       (earlyExercise (exercise a))
                       (opt_step (initialize o l))
                       (opt_values (initialize o l))) /\
    (forall msg st',
        calculate (threePointClass T0) dF th e a st
        <> (Throw (mkError Ensure msg), st')) /\
    ((0 <? spot e)%float = true ->
     forall pv, payoff a = Plain pv ->
     exists st', calculate (threePointClass T0) dF th e a st = (Ok tt, st')).
Proof.
  intros HN.
  exists (mkEngine p timeSteps).
  assert (Hlen : forall pv,
             List.length (engine_values (threePointClass T0) dF
                                        (mkEngine p timeSteps) a pv) = 3).
  { intros pv. rewrite engine_values_length. reflexivity. }
  repeat split.
  - unfold BinomialVanillaEngine_2.
    apply N.leb_le in HN. now rewrite HN.
  - exact Hlen.
  - intros pv l o.
    apply growing_reads_in_range.
    + intros i. subst l. rewrite !threePointClass_size. reflexivity.
    + apply initialize_length.
  - intros msg st' Hc.
    rewrite calculate_unfold in Hc.
    destruct (0 <? spot (mkEngine p timeSteps))%float; [| discriminate Hc].
    destruct (dynamic_pointer_cast (payoff a)) as [pv|]; [| discriminate Hc].
    cbv zeta in Hc. rewrite Hlen in Hc. discriminate Hc.
  - intros Hpos pv Hpv.
    rewrite calculate_unfold, Hpos, Hpv. cbn [dynamic_pointer_cast].
    cbv zeta. rewrite Hlen. cbn [Nat.eqb]. eexists. reflexivity.
Qed.

(** ** Facts about doubles *)

(** A double that is at most zero is not above zero. *)
Lemma le_zero_not_positive (x : Real) :
  (x <=? 0)%float = true -> (0 <? x)%float = false.
Proof.
  rewrite leb_spec, ltb_spec. unfold SFleb, SFltb.
  destruct (Prim2SF x) as [s | s | | s m ex]; simpl;
    try reflexivity; try discriminate;
    destruct s; simpl; try reflexivity; discriminate.
Qed.

(** Two doubles told apart by the comparison are different. *)
Lemma float_eqb_false_neq (x y : Real) :
  (x =? x)%float = true -> (x =? y)%float = false -> x <> y.
Proof. intros Hx Hxy E. rewrite <- E in Hxy. congruence. Qed.

(** ** What a returning call stores *)

Section SuccessfulCall.

Variable T : FlatProcess -> Time -> Size -> Real -> Tree.
Variable dF : Rate -> Time -> Size -> nat -> Real.
Variable th : GeneralizedBlackScholesProcess -> Real -> Real -> Real -> Real.

Variables (e : Engine) (a : Arguments) (st st' : EngineState).

Hypothesis Hcall : calculate T dF th e a st = (Ok tt, st').

(** C2, as amended.  The stored gamma is the difference of the two
    one-sided slopes over half the distance of the outer nodes, where the
    outer prices are the lattice's at nodes (0, 0) and (0, 2) and the mid
    price is the spot sampled from the process. *)
Theorem gamma_from_spot :
  exists pv,
    payoff a = Plain pv /\
    let va := engine_values T dF e a pv in
    let l := engine_lattice T dF e a pv in
    List.length va = 3 /\
    gamma (results_ st')
    = spec_gamma (nth 0 va 0%float) (nth 1 va 0%float) (nth 2 va 0%float)
                 (lat_underlying l 0 0) (spot e) (lat_underlying l 0 2).
Proof.
  destruct (calculate_ok_inv _ _ _ _ _ _ _ Hcall)
    as (pv & Hp & _ & Hlen & Hst).
  exists pv. split; [exact Hp |]. cbv zeta in *.
  split; [exact Hlen |]. rewrite Hst. reflexivity.
Qed.

(** C3.  The stored delta is the difference of the values at the highest
    and the lowest of the three time-0 nodes (indices 2 and 0) over the
    difference of the lattice's underlying prices at those two nodes. *)
Theorem delta_across_outer_nodes :
  exists pv,
    payoff a = Plain pv /\
    let va := engine_values T dF e a pv in
    let l := engine_lattice T dF e a pv in
    List.length va = 3 /\
    delta (results_ st')
    = spec_delta (nth 0 va 0%float) (nth 2 va 0%float)
                 (lat_underlying l 0 0) (lat_underlying l 0 2).
Proof.
  destruct (calculate_ok_inv _ _ _ _ _ _ _ Hcall)
    as (pv & Hp & _ & Hlen & Hst).
  exists pv. split; [exact Hp |]. cbv zeta in *.
  split; [exact Hlen |]. rewrite Hst. reflexivity.
Qed.

(** C4.  The stored value is the entry of index 1, the middle one, of the
    3-element vector of node values at time 0. *)
Theorem value_is_mid_node :
  exists pv p0d p0 p0u,
    payoff a = Plain pv /\
    engine_values T dF e a pv = [p0d; p0; p0u] /\
    value (results_ st') = p0.
Proof.
  destruct (calculate_ok_inv _ _ _ _ _ _ _ Hcall)
    as (pv & Hp & _ & Hlen & Hst).
  cbv zeta in Hst.
  destruct (engine_values T dF e a pv) as [| x0 [| x1 [| x2 [| x3 rest]]]]
    eqn:Hva; try discriminate Hlen.
  exists pv, x0, x1, x2.
  split; [exact Hp | split; [exact Hva |]].
  rewrite Hst. reflexivity.
Qed.

(** C5.  The stored theta is the closed-form helper applied to the
    process and to the value, delta and gamma just stored.  Of the call,
    the helper's evaluation is the last event; before it lie one tree
    construction and one rollback, and nothing of the lattice after it. *)
Theorem theta_from_stored_greeks :
  theta (results_ st')
  = th (process_ e) (value (results_ st')) (delta (results_ st'))
       (gamma (results_ st')) /\
  exists evs,
    trace st' = trace st ++ evs
                ++ [EvTheta (value (results_ st')) (delta (results_ st'))
                            (gamma (results_ st'))] /\
    List.length (filter is_tree_build evs) = 1 /\
    List.length (filter is_rollback evs) = 1.
Proof.
  destruct (calculate_ok_inv _ _ _ _ _ _ _ Hcall)
    as (pv & _ & _ & _ & Hst).
  cbv zeta in Hst. rewrite Hst. cbn [results_ trace value delta gamma theta].
  split; [reflexivity |].
  exists (lattice_events e a pv). repeat split.
Qed.

End SuccessfulCall.

(** ** The checks *)

(** C6.  The constructor throws the step-count precondition, with the count
    in its message, for every count below 2 and returns the engine for every
    other count; a caller who constructs and then prices gets that error
    with the state, and so the trace of lattice work, untouched. *)
Theorem constructor_requires_two_steps
    (p : GeneralizedBlackScholesProcess) (timeSteps : Size) :
  ((timeSteps < 2)%N ->
   BinomialVanillaEngine_2 p timeSteps
   = Throw (mkError Require
              ("at least 2 time steps required, " ++ show_Size timeSteps
               ++ " provided")%string)) /\
  ((2 <= timeSteps)%N ->
   BinomialVanillaEngine_2 p timeSteps = Ok (mkEngine p timeSteps)) /\
  (forall T dF th a st,
      (timeSteps < 2)%N ->
      construct_then_calculate T dF th p timeSteps a st
      = (Throw (mkError Require
                  ("at least 2 time steps required, " ++ show_Size timeSteps
                   ++ " provided")%string), st)).
Proof.
  assert (Hlow : (timeSteps < 2)%N -> (2 <=? timeSteps)%N = false)
    by (intros H; now apply N.leb_gt).
  repeat split.
  - intros H. unfold BinomialVanillaEngine_2. now rewrite (Hlow H).
  - intros H. unfold BinomialVanillaEngine_2.
    apply N.leb_le in H. now rewrite H.
  - intros T dF th a st H.
    unfold construct_then_calculate, BinomialVanillaEngine_2.
    now rewrite (Hlow H).
Qed.

Section Checks.

Variable T : FlatProcess -> Time -> Size -> Real -> Tree.
Variable dF : Rate -> Time -> Size -> nat -> Real.
Variable th : GeneralizedBlackScholesProcess -> Real -> Real -> Real -> Real.

(** The spot check is the first thing that can fail: a spot that does not
    compare above zero (a NaN included) stops the call where it began. *)
Lemma not_positive_spot_rejected (e : Engine) (a : Arguments)
    (st : EngineState) :
  (0 <? spot e)%float = false ->
  calculate T dF th e a st
  = (Throw (mkError Require "negative or null underlying given"), st).
Proof. intros H. now rewrite calculate_unfold, H. Qed.

(** C7.  A call whose sampled spot is at most zero throws the spot
    precondition and leaves the state as it found it: no result is stored
    and no lattice work is traced. *)
Theorem nonpositive_spot_rejected (e : Engine) (a : Arguments)
    (st : EngineState) :
  (spot e <=? 0)%float = true ->
  calculate T dF th e a st
  = (Throw (mkError Require "negative or null underlying given"), st).
Proof.
  intros H. apply not_positive_spot_rejected, le_zero_not_positive, H.
Qed.

(** C8, as amended.  A call whose payoff is not a plain vanilla one throws
    a precondition and leaves the state as it found it, so no tree is
    built and nothing rolled back; the message is the payoff's when the
    spot is above zero, and the spot's otherwise. *)
Theorem nonplain_payoff_rejected (e : Engine) (a : Arguments)
    (st : EngineState) :
  dynamic_pointer_cast (payoff a) = None ->
  exists msg,
    calculate T dF th e a st = (Throw (mkError Require msg), st) /\
    ((0 <? spot e)%float = true -> msg = "non-plain payoff given") /\
    ((0 <? spot e)%float = false ->
     msg = "negative or null underlying given").
Proof.
  intros Hp. rewrite calculate_unfold, Hp.
  destruct (0 <? spot e)%float; eexists; repeat split;
    intros; try reflexivity; discriminate.
Qed.

(** C9.  A call that throws, whichever of its checks threw, leaves
    [results_] as it was before the call; the error is one of the three
    the engine raises. *)
Theorem failed_call_stores_nothing (e : Engine) (a : Arguments)
    (st st' : EngineState) (err : Error) :
  calculate T dF th e a st = (Throw err, st') ->
  results_ st' = results_ st /\
  (err = mkError Require "negative or null underlying given" \/
   err = mkError Require "non-plain payoff given" \/
   err = mkError Ensure "Expect 3 nodes in grid at 0 step").
Proof.
  intros Hc. split.
  - exact (proj1 (calculate_throw_inv _ _ _ _ _ _ _ _ Hc)).
  - rewrite calculate_unfold in Hc.
    destruct (0 <? spot e)%float.
    + destruct (dynamic_pointer_cast (payoff a)) as [pv|].
      * cbv zeta in Hc.
        destruct (Nat.eqb _ 3); [discriminate Hc |].
        inversion Hc. now right; right.
      * inversion Hc. now right; left.
    + inversion Hc. now left.
Qed.

(** C10.  Whatever a call adds to the trace, a tree construction in it was
    given a flat process whose constant volatility is the process's Black
    volatility at the exercise's last date and at the spot; a call that
    passes its two preconditions has such a construction, and its lattice
    stands on the tree so built. *)
Theorem flat_vol_sampled_at_spot (e : Engine) (a : Arguments)
    (st : EngineState) :
  exists evs,
    trace (snd (calculate T dF th e a st)) = trace st ++ evs /\
    (forall bs m n k,
        In (EvTree bs m n k) evs ->
        bcv_volatility (bs_blackVolatility bs)
        = blackVol (blackVolatility (process_ e))
                   (lastDate (exercise a))
                   (quote_value (stateVariable (process_ e)))) /\
    (forall pv,
        (0 <? spot e)%float = true ->
        payoff a = Plain pv ->
        In (EvTree (engine_bs e a) (engine_maturity e a) (timeSteps_ e)
                   (strike pv)) evs /\
        lat_tree (engine_lattice T dF e a pv)
        = T (engine_bs e a) (engine_maturity e a) (timeSteps_ e)
            (strike pv)).
Proof.
  assert (Hev : forall pv bs m n k (tail : list Event),
             (forall ev, In ev tail -> is_tree_build ev = false) ->
             In (EvTree bs m n k) (lattice_events e a pv ++ tail) ->
             bcv_volatility (bs_blackVolatility bs)
             = blackVol (blackVolatility (process_ e))
                        (lastDate (exercise a))
                        (quote_value (stateVariable (process_ e)))).
  { intros pv bs m n k tail Htail Hin.
    apply in_app_or in Hin. destruct Hin as [Hin | Hin].
    - cbn in Hin.
      destruct Hin as [H | [H | [H | [H | [H | []]]]]];
        try discriminate H.
      inversion H; subst. reflexivity.
    - apply Htail in Hin. discriminate Hin. }
  rewrite calculate_unfold.
  destruct (0 <? spot e)%float.
  - destruct (payoff a) as [pv | other]; cbn [dynamic_pointer_cast].
    + cbv zeta. destruct (Nat.eqb _ 3); cbn [snd trace].
      * eexists. split; [reflexivity |]. split.
        -- intros bs m n k Hin. apply (Hev pv bs m n k _) in Hin;
             [exact Hin |].
           intros ev [<- | []]. reflexivity.
        -- intros pv' _ Hpv. inversion Hpv; subst pv'.
           split; [| reflexivity]. cbn. right. left. reflexivity.
      * exists (lattice_events e a pv). split; [reflexivity |]. split.
        -- intros bs m n k Hin.
           apply (Hev pv bs m n k []); [intros ev [] |].
           now rewrite app_nil_r.
        -- intros pv' _ Hpv. inversion Hpv; subst pv'.
           split; [| reflexivity]. cbn. right. left. reflexivity.
    + exists []. cbn [snd]. split; [now rewrite app_nil_r |]. split.
      * intros bs m n k [].
      * intros pv _ Hpv. discriminate Hpv.
  - exists []. cbn [snd]. split; [now rewrite app_nil_r |]. split.
    + intros bs m n k [].
    + intros pv Hpos. discriminate Hpos.
Qed.

End Checks.

(** ** The sample calls, evaluated *)

(** Value 19.5, delta 0.352, gamma about 0.000636 and theta about -22.06,
    each to the last bit. *)
Example sample_run_value :
  sample_run
  = (Ok tt,
     mkState (mkResults 19.5 0x1.6872b020c49bap-2 0x1.4d36d29b729ffp-11
                        (-0x1.60e38e38e38e3p+4))
             (trace (snd sample_run))).
Proof. vm_compute. reflexivity. Qed.

Example sample_run_nodes :
  engine_values (earlyRootTree 2 0.5 0.5) sample_discount
                (sample_engine 100 2) sample_arguments (sample_call 96)
  = [0.25; 19.5; 132.25]%float.
Proof. vm_compute. reflexivity. Qed.

Example skewed_run_nodes :
  engine_values (earlyRootTree 2 0.25 0.5) sample_discount
                (sample_engine 100 2) sample_arguments (sample_call 96)
  = [0; 6.5; 107]%float.
Proof. vm_compute. reflexivity. Qed.

(** On the tree rooted at time 0 a single node is left and the call throws
    the 3-node expectation, after the lattice work. *)
Example rooted_run_throws :
  fst rooted_run = Throw (mkError Ensure "Expect 3 nodes in grid at 0 step")
  /\ List.length (trace (snd rooted_run)) = 5
  /\ List.length (engine_values (rootedTree 2 0.5 0.5) sample_discount
                                (sample_engine 100 2) sample_arguments
                                (sample_call 96)) = 1.
Proof. vm_compute. repeat split. Qed.

(** The smile is asked at the spot, 100, not at the strike, 96. *)
Example sample_vol_at_spot :
  sampled_vol (sample_engine 100 2) sample_arguments = 0.1953125%float
  /\ blackVol sample_smile 365%Z 96 = 0.1875%float.
Proof. vm_compute. split; reflexivity. Qed.

Example constructor_message_one_step :
  BinomialVanillaEngine_2 (sample_process 100) 1
  = Throw (mkError Require "at least 2 time steps required, 1 provided").
Proof. reflexivity. Qed.

(** ** Instances and counterexamples *)

(** The boundary case: two steps, the fewest the constructor accepts. *)
Lemma three_nodes_at_time_zero_boundary :
  (2 <= 2)%N /\
  exists e,
    BinomialVanillaEngine_2 (sample_process 100) 2 = Ok e /\
    timeSteps_ e = 2%N /\
    (forall pv,
        List.length
          (engine_values (threePointClass (earlyRootTree 2 0.5 0.5))
                         sample_discount e sample_arguments pv) = 3) /\
    (forall pv,
        let l := engine_lattice (threePointClass (earlyRootTree 2 0.5 0.5))
                                sample_discount e sample_arguments pv in
        let o := mkOption sample_arguments
                          (mkTimeGrid (engine_maturity e sample_arguments) 2)
                          0 [] in
        reads_in_range l (payoff_evaluate (payoff sample_arguments))
                       (earlyExercise (exercise sample_arguments))
                       (opt_step (initialize o l))
                       (opt_values (initialize o l))) /\
    (forall msg st',
        calculate (threePointClass (earlyRootTree 2 0.5 0.5)) sample_discount
                  sample_theta e sample_arguments initial_state
        <> (Throw (mkError Ensure msg), st')) /\
    ((0 <? spot e)%float = true ->
     forall pv, payoff sample_arguments = Plain pv ->
     exists st',
       calculate (threePointClass (earlyRootTree 2 0.5 0.5)) sample_discount
                 sample_theta e sample_arguments initial_state
       = (Ok tt, st')).
Proof.
  split.
  - discriminate.
  - apply (three_nodes_at_time_zero (earlyRootTree 2 0.5 0.5) sample_discount
             sample_theta (sample_process 100) 2 sample_arguments
             initial_state).
    discriminate.
Defined.

(** C2, as stated, fails on a tree whose mid node at time 0 is not priced at
    the spot: the engine divides by distances from the spot, 100, while node
    (0, 1) is at 50. *)
Lemma gamma_from_mid_node_price_fails :
  ~ gamma_from_mid_node_price (earlyRootTree 2 0.25 0.5) sample_discount
                              sample_theta.
Proof.
  intros H.
  specialize (H (sample_engine 100 2) sample_arguments initial_state
                (snd skewed_run) (sample_call 96)).
  assert (Hrun : calculate (earlyRootTree 2 0.25 0.5) sample_discount
                           sample_theta (sample_engine 100 2)
                           sample_arguments initial_state
                 = (Ok tt, snd skewed_run))
    by (vm_compute; reflexivity).
  specialize (H Hrun eq_refl). cbv zeta in H.
  revert H. apply float_eqb_false_neq; vm_compute; reflexivity.
Qed.

(** The sample call stores the gamma of the formula taken at the spot. *)
Lemma gamma_from_spot_sample :
  sample_run = (Ok tt, snd sample_run) /\
  exists pv,
    payoff sample_arguments = Plain pv /\
    let va := engine_values (earlyRootTree 2 0.5 0.5) sample_discount
                            (sample_engine 100 2) sample_arguments pv in
    let l := engine_lattice (earlyRootTree 2 0.5 0.5) sample_discount
                            (sample_engine 100 2) sample_arguments pv in
    List.length va = 3 /\
    gamma (results_ (snd sample_run))
    = spec_gamma (nth 0 va 0%float) (nth 1 va 0%float) (nth 2 va 0%float)
                 (lat_underlying l 0 0) (spot (sample_engine 100 2))
                 (lat_underlying l 0 2).
Proof.
  split.
  - vm_compute. reflexivity.
  - apply (gamma_from_spot (earlyRootTree 2 0.5 0.5) sample_discount
             sample_theta (sample_engine 100 2) sample_arguments
             initial_state (snd sample_run)).
    vm_compute. reflexivity.
Defined.

(** The sample call stores the delta across its outer nodes. *)
Lemma delta_across_outer_nodes_sample :
  sample_run = (Ok tt, snd sample_run) /\
  exists pv,
    payoff sample_arguments = Plain pv /\
    let va := engine_values (earlyRootTree 2 0.5 0.5) sample_discount
                            (sample_engine 100 2) sample_arguments pv in
    let l := engine_lattice (earlyRootTree 2 0.5 0.5) sample_discount
                            (sample_engine 100 2) sample_arguments pv in
    List.length va = 3 /\
    delta (results_ (snd sample_run))
    = spec_delta (nth 0 va 0%float) (nth 2 va 0%float)
                 (lat_underlying l 0 0) (lat_underlying l 0 2).
Proof.
  split.
  - vm_compute. reflexivity.
  - apply (delta_across_outer_nodes (earlyRootTree 2 0.5 0.5) sample_discount
             sample_theta (sample_engine 100 2) sample_arguments
             initial_state (snd sample_run)).
    vm_compute. reflexivity.
Defined.

(** The sample call stores the middle one of its three node values. *)
Lemma value_is_mid_node_sample :
  sample_run = (Ok tt, snd sample_run) /\
  exists pv p0d p0 p0u,
    payoff sample_arguments = Plain pv /\
    engine_values (earlyRootTree 2 0.5 0.5) sample_discount
                  (sample_engine 100 2) sample_arguments pv
    = [p0d; p0; p0u] /\
    value (results_ (snd sample_run)) = p0.
Proof.
  split.
  - vm_compute. reflexivity.
  - apply (value_is_mid_node (earlyRootTree 2 0.5 0.5) sample_discount
             sample_theta (sample_engine 100 2) sample_arguments
             initial_state (snd sample_run)).
    vm_compute. reflexivity.
Defined.

(** The sample call evaluates the helper once, last, on what it stored. *)
Lemma theta_from_stored_greeks_sample :
  sample_run = (Ok tt, snd sample_run) /\
  theta (results_ (snd sample_run))
  = sample_theta (process_ (sample_engine 100 2))
                 (value (results_ (snd sample_run)))
                 (delta (results_ (snd sample_run)))
                 (gamma (results_ (snd sample_run))) /\
  exists evs,
    trace (snd sample_run)
    = trace initial_state ++ evs
      ++ [EvTheta (value (results_ (snd sample_run)))
                  (delta (results_ (snd sample_run)))
                  (gamma (results_ (snd sample_run)))] /\
    List.length (filter is_tree_build evs) = 1 /\
    List.length (filter is_rollback evs) = 1.
Proof.
  split.
  - vm_compute. reflexivity.
  - apply (theta_from_stored_greeks (earlyRootTree 2 0.5 0.5) sample_discount
             sample_theta (sample_engine 100 2) sample_arguments
             initial_state (snd sample_run)).
    vm_compute. reflexivity.
Defined.

(** One step is refused with its count in the message; two are accepted. *)
Lemma constructor_rejects_one_step :
  BinomialVanillaEngine_2 (sample_process 100) 1
  = Throw (mkError Require "at least 2 time steps required, 1 provided") /\
  BinomialVanillaEngine_2 (sample_process 100) 2
  = Ok (mkEngine (sample_process 100) 2).
Proof.
  split.
  - apply (proj1 (constructor_requires_two_steps (sample_process 100) 1)).
    reflexivity.
  - apply (proj1 (proj2 (constructor_requires_two_steps (sample_process 100) 2))).
    discriminate.
Defined.

(** A spot of exactly zero is refused and the state is the initial one. *)
Lemma zero_spot_rejected :
  (spot (sample_engine 0 2) <=? 0)%float = true /\
  calculate (earlyRootTree 2 0.5 0.5) sample_discount sample_theta
            (sample_engine 0 2) sample_arguments initial_state
  = (Throw (mkError Require "negative or null underlying given"),
     initial_state).
Proof.
  split.
  - vm_compute. reflexivity.
  - apply (nonpositive_spot_rejected (earlyRootTree 2 0.5 0.5) sample_discount
             sample_theta (sample_engine 0 2) sample_arguments initial_state).
    vm_compute. reflexivity.
Defined.

(** C8, as stated, fails when the spot is zero as well: the spot check comes
    first and its message is the one thrown. *)
Lemma nonplain_not_always_reported :
  ~ nonplain_always_reported (earlyRootTree 2 0.5 0.5) sample_discount
                             sample_theta.
Proof.
  intros H.
  destruct (H (sample_engine 0 2) sample_nonplain_arguments initial_state
              eq_refl) as [st' Hst'].
  rewrite not_positive_spot_rejected in Hst' by (vm_compute; reflexivity).
  discriminate Hst'.
Qed.

(** With a positive spot the payoff of another class is what is reported. *)
Lemma nonplain_payoff_rejected_sample :
  dynamic_pointer_cast (payoff sample_nonplain_arguments) = None /\
  exists msg,
    calculate (earlyRootTree 2 0.5 0.5) sample_discount sample_theta
              (sample_engine 100 2) sample_nonplain_arguments initial_state
    = (Throw (mkError Require msg), initial_state) /\
    ((0 <? spot (sample_engine 100 2))%float = true ->
     msg = "non-plain payoff given") /\
    ((0 <? spot (sample_engine 100 2))%float = false ->
     msg = "negative or null underlying given").
Proof.
  split.
  - reflexivity.
  - apply (nonplain_payoff_rejected (earlyRootTree 2 0.5 0.5) sample_discount
             sample_theta (sample_engine 100 2) sample_nonplain_arguments
             initial_state).
    reflexivity.
Defined.

(** The call on the tree rooted at time 0 throws with the reset results
    still in place. *)
Lemma failed_call_stores_nothing_rooted :
  rooted_run
  = (Throw (mkError Ensure "Expect 3 nodes in grid at 0 step"),
     snd rooted_run) /\
  results_ (snd rooted_run) = results_ initial_state /\
  (mkError Ensure "Expect 3 nodes in grid at 0 step"
   = mkError Require "negative or null underlying given" \/
   mkError Ensure "Expect 3 nodes in grid at 0 step"
   = mkError Require "non-plain payoff given" \/
   mkError Ensure "Expect 3 nodes in grid at 0 step"
   = mkError Ensure "Expect 3 nodes in grid at 0 step").
Proof.
  split.
  - vm_compute. reflexivity.
  - apply (failed_call_stores_nothing (rootedTree 2 0.5 0.5) sample_discount
             sample_theta (sample_engine 100 2) sample_arguments
             initial_state (snd rooted_run)).
    vm_compute. reflexivity.
Defined.

(** The sample call builds its tree on the smile's volatility at the spot. *)
Lemma flat_vol_sampled_at_spot_sample :
  exists evs,
    trace (snd sample_run) = trace initial_state ++ evs /\
    (forall bs m n k,
        In (EvTree bs m n k) evs ->
        bcv_volatility (bs_blackVolatility bs)
        = blackVol (blackVolatility (process_ (sample_engine 100 2)))
                   (lastDate (exercise sample_arguments))
                   (quote_value (stateVariable (process_ (sample_engine 100 2))))) /\
    (forall pv,
        (0 <? spot (sample_engine 100 2))%float = true ->
        payoff sample_arguments = Plain pv ->
        In (EvTree (engine_bs (sample_engine 100 2) sample_arguments)
                   (engine_maturity (sample_engine 100 2) sample_arguments)
                   (timeSteps_ (sample_engine 100 2)) (strike pv)) evs /\
        lat_tree (engine_lattice (earlyRootTree 2 0.5 0.5) sample_discount
                                 (sample_engine 100 2) sample_arguments pv)
        = earlyRootTree 2 0.5 0.5
            (engine_bs (sample_engine 100 2) sample_arguments)
            (engine_maturity (sample_engine 100 2) sample_arguments)
            (timeSteps_ (sample_engine 100 2)) (strike pv)).
Proof.
  exact (flat_vol_sampled_at_spot (earlyRootTree 2 0.5 0.5) sample_discount
           sample_theta (sample_engine 100 2) sample_arguments initial_state).
Defined.

(** * Further properties of the engine *)

(** ** When a call returns *)

(** X1.  A call returns exactly when the spot compares above zero, the
    payoff is a plain vanilla one and the rolled-back vector has 3 entries:
    the engine has no other check, none in particular on the distance of
    the outer nodes it divides by. *)
Theorem calculate_returns_iff
    (T : FlatProcess -> Time -> Size -> Real -> Tree)
    (dF : Rate -> Time -> Size -> nat -> Real)
    (th : GeneralizedBlackScholesProcess -> Real -> Real -> Real -> Real)
    (e : Engine) (a : Arguments) (st : EngineState) :
  (exists st', calculate T dF th e a st = (Ok tt, st')) <->
  ((0 <? spot e)%float = true /\
   exists pv, payoff a = Plain pv /\
              List.length (engine_values T dF e a pv) = 3).
Proof.
  split.
  - intros [st' Hc].
    destruct (calculate_ok_inv _ _ _ _ _ _ _ Hc)
      as (pv & Hp & Hpos & Hlen & _).
    split; [exact Hpos | exists pv; now split].
  - intros (Hpos & pv & Hp & Hlen).
    rewrite calculate_unfold, Hpos, Hp. cbn [dynamic_pointer_cast].
    cbv zeta. rewrite Hlen. cbn [Nat.eqb]. eexists. reflexivity.
Qed.

(** ** What a call owes to the state it starts from *)

(** X2.  Whether a call returns or throws, and with which error, does not
    depend on the state it starts from, and a returning call overwrites all
    four results: two calls of the same engine on the same arguments from
    any two states end with the same [results_]. *)
Theorem results_independent_of_state
    (T : FlatProcess -> Time -> Size -> Real -> Tree)
    (dF : Rate -> Time -> Size -> nat -> Real)
    (th : GeneralizedBlackScholesProcess -> Real -> Real -> Real -> Real)
    (e : Engine) (a : Arguments) (st1 st2 : EngineState) :
  fst (calculate T dF th e a st1) = fst (calculate T dF th e a st2) /\
  (fst (calculate T dF th e a st1) = Ok tt ->
   results_ (snd (calculate T dF th e a st1))
   = results_ (snd (calculate T dF th e a st2))).
Proof.
  rewrite !calculate_unfold.
  destruct (0 <? spot e)%float; [| split; [reflexivity | discriminate]].
  destruct (dynamic_pointer_cast (payoff a)) as [pv|];
    [| split; [reflexivity | discriminate]].
  cbv zeta. destruct (Nat.eqb _ 3); cbn [fst snd results_].
  - split; reflexivity.
  - split; [reflexivity | discriminate].
Qed.

(** ** Where a call can fail *)

(** X3.  A precondition is thrown before any lattice work: the state is the
    one the call started from.  The 3-node expectation is thrown only past
    both preconditions and after the whole lattice work, which the trace
    then holds.  No throwing call evaluates the theta helper. *)
Theorem failure_points
    (T : FlatProcess -> Time -> Size -> Real -> Tree)
    (dF : Rate -> Time -> Size -> nat -> Real)
    (th : GeneralizedBlackScholesProcess -> Real -> Real -> Real -> Real)
    (e : Engine) (a : Arguments) (st st' : EngineState) (err : Error) :
  calculate T dF th e a st = (Throw err, st') ->
  (err_check err = Require -> st' = st) /\
  (err_check err = Ensure ->
   (0 <? spot e)%float = true /\
   exists pv,
     payoff a = Plain pv /\
     List.length (engine_values T dF e a pv) <> 3 /\
     trace st' = trace st ++ lattice_events e a pv) /\
  (forall v d g,
      In (EvTheta v d g) (trace st') -> In (EvTheta v d g) (trace st)).
Proof.
  intros Hc. rewrite calculate_unfold in Hc.
  destruct (0 <? spot e)%float eqn:Hpos.
  - destruct (payoff a) as [pv | other] eqn:Hp;
      cbn [dynamic_pointer_cast] in Hc.
    + cbv zeta in Hc.
      destruct (Nat.eqb (List.length (engine_values T dF e a pv)) 3) eqn:Hlen;
        [discriminate Hc |].
      inversion Hc; subst; clear Hc. cbn [err_check trace].
      split; [discriminate |]. split.
      * intros _. split; [reflexivity |]. exists pv.
        repeat split. now apply Nat.eqb_neq.
      * intros v d g Hin. apply in_app_or in Hin.
        destruct Hin as [Hin | Hin]; [exact Hin |].
        cbn in Hin.
        destruct Hin as [H | [H | [H | [H | [H | []]]]]]; discriminate H.
    + inversion Hc; subst; clear Hc. cbn [err_check].
      split; [reflexivity |]. split; [discriminate | tauto].
  - inversion Hc; subst; clear Hc. cbn [err_check].
    split; [reflexivity |]. split; [discriminate | tauto].
Qed.

(** ** What the lattice objects are built from *)

(** X4.  Whatever lattice work a call traces, the grid, the tree and the
    lattice were built with one maturity, the risk-free day counter's year
    fraction from the risk-free reference date to the last exercise date,
    and with the engine's step count; the lattice discounts at the rate of
    the tree's flat risk-free curve; the three flat curves all start at the
    risk-free curve's reference date; and the tree was given the payoff's
    strike and the process's own quote. *)
Theorem lattice_objects_agree
    (T : FlatProcess -> Time -> Size -> Real -> Tree)
    (dF : Rate -> Time -> Size -> nat -> Real)
    (th : GeneralizedBlackScholesProcess -> Real -> Real -> Real -> Real)
    (e : Engine) (a : Arguments) (st : EngineState) :
  exists evs,
    trace (snd (calculate T dF th e a st)) = trace st ++ evs /\
    forall m1 n1 bs m2 n2 k r m3 n3,
      In (EvTimeGrid m1 n1) evs ->
      In (EvTree bs m2 n2 k) evs ->
      In (EvLattice r m3 n3) evs ->
      let rf := riskFreeRate (process_ e) in
      m1 = yearFraction (yts_dayCounter rf) (yts_referenceDate rf)
                        (lastDate (exercise a)) /\
      m2 = m1 /\ m3 = m1 /\
      n1 = timeSteps_ e /\ n2 = timeSteps_ e /\ n3 = timeSteps_ e /\
      ff_forward (bs_riskFreeRate bs) = r /\
      ff_referenceDate (bs_riskFreeRate bs) = yts_referenceDate rf /\
      ff_referenceDate (bs_dividendYield bs) = yts_referenceDate rf /\
      bcv_referenceDate (bs_blackVolatility bs) = yts_referenceDate rf /\
      bs_stateVariable bs = stateVariable (process_ e) /\
      exists pv, payoff a = Plain pv /\ k = strike pv.
Proof.
  assert (Hev : forall pv (tail : list Event),
             payoff a = Plain pv ->
             (forall ev, In ev tail -> exists v d g, ev = EvTheta v d g) ->
             forall m1 n1 bs m2 n2 k r m3 n3,
               In (EvTimeGrid m1 n1) (lattice_events e a pv ++ tail) ->
               In (EvTree bs m2 n2 k) (lattice_events e a pv ++ tail) ->
               In (EvLattice r m3 n3) (lattice_events e a pv ++ tail) ->
               m1 = engine_maturity e a /\ m2 = m1 /\ m3 = m1 /\
               n1 = timeSteps_ e /\ n2 = timeSteps_ e /\ n3 = timeSteps_ e /\
               bs = engine_bs e a /\ r = sampled_r e a /\ k = strike pv).
  { intros pv tail Hp Htail m1 n1 bs m2 n2 k r m3 n3 H1 H2 H3.
    assert (Hg : In (EvTimeGrid m1 n1) (lattice_events e a pv)).
    { apply in_app_or in H1. destruct H1 as [H | H]; [exact H |].
      destruct (Htail _ H) as (v & d & g & E). discriminate E. }
    assert (Ht : In (EvTree bs m2 n2 k) (lattice_events e a pv)).
    { apply in_app_or in H2. destruct H2 as [H | H]; [exact H |].
      destruct (Htail _ H) as (v & d & g & E). discriminate E. }
    assert (Hl : In (EvLattice r m3 n3) (lattice_events e a pv)).
    { apply in_app_or in H3. destruct H3 as [H | H]; [exact H |].
      destruct (Htail _ H) as (v & d & g & E). discriminate E. }
    clear H1 H2 H3. cbn in Hg, Ht, Hl.
    destruct Hg as [H | [H | [H | [H | [H | []]]]]]; try discriminate H.
    inversion H; subst; clear H.
    destruct Ht as [H | [H | [H | [H | [H | []]]]]]; try discriminate H.
    inversion H; subst; clear H.
    destruct Hl as [H | [H | [H | [H | [H | []]]]]]; try discriminate H.
    inversion H; subst; clear H.
    repeat split. }
  assert (Hfin : forall pv (evs : list Event),
             payoff a = Plain pv ->
             (forall m1 n1 bs m2 n2 k r m3 n3,
                 In (EvTimeGrid m1 n1) evs ->
                 In (EvTree bs m2 n2 k) evs ->
                 In (EvLattice r m3 n3) evs ->
                 m1 = engine_maturity e a /\ m2 = m1 /\ m3 = m1 /\
                 n1 = timeSteps_ e /\ n2 = timeSteps_ e /\
                 n3 = timeSteps_ e /\
                 bs = engine_bs e a /\ r = sampled_r e a /\ k = strike pv) ->
             forall m1 n1 bs m2 n2 k r m3 n3,
               In (EvTimeGrid m1 n1) evs ->
               In (EvTree bs m2 n2 k) evs ->
               In (EvLattice r m3 n3) evs ->
               let rf := riskFreeRate (process_ e) in
               m1 = yearFraction (yts_dayCounter rf) (yts_referenceDate rf)
                                 (lastDate (exercise a)) /\
               m2 = m1 /\ m3 = m1 /\
               n1 = timeSteps_ e /\ n2 = timeSteps_ e /\ n3 = timeSteps_ e /\
               ff_forward (bs_riskFreeRate bs) = r /\
               ff_referenceDate (bs_riskFreeRate bs) = yts_referenceDate rf /\
               ff_referenceDate (bs_dividendYield bs) = yts_referenceDate rf /\
               bcv_referenceDate (bs_blackVolatility bs)
               = yts_referenceDate rf /\
               bs_stateVariable bs = stateVariable (process_ e) /\
               exists pv', payoff a = Plain pv' /\ k = strike pv').
  { intros pv evs Hp Hall m1 n1 bs m2 n2 k r m3 n3 H1 H2 H3 rf.
    destruct (Hall _ _ _ _ _ _ _ _ _ H1 H2 H3)
      as (E1 & E2 & E3 & E4 & E5 & E6 & E7 & E8 & E9).
    subst. repeat split. exists pv. now split. }
  rewrite calculate_unfold.
  destruct (0 <? spot e)%float.
  - destruct (payoff a) as [pv | other] eqn:Hp; cbn [dynamic_pointer_cast].
    + cbv zeta. destruct (Nat.eqb _ 3); cbn [snd trace].
      * eexists. split; [reflexivity |].
        apply (Hfin pv); [reflexivity |].
        apply Hev; [reflexivity |].
        intros ev [<- | []]. now eexists _, _, _.
      * exists (lattice_events e a pv). split; [reflexivity |].
        apply (Hfin pv); [reflexivity |].
        intros m1 n1 bs m2 n2 k r m3 n3 H1 H2 H3.
        apply (Hev pv [] eq_refl); [intros ev [] | | |];
          now rewrite app_nil_r.
    + exists []. cbn [snd]. split; [now rewrite app_nil_r |].
      intros m1 n1 bs m2 n2 k r m3 n3 [].
  - exists []. cbn [snd]. split; [now rewrite app_nil_r |].
    intros m1 n1 bs m2 n2 k r m3 n3 [].
Qed.

(** ** Outer nodes at one price *)

(** A finite double less itself is the positive zero. *)
Lemma sub_self_zero (x : Real) :
  is_finite_double x = true -> (x - x)%float = 0%float.
Proof.
  unfold is_finite_double. intros Hfin.
  apply Prim2SF_inj. rewrite sub_spec.
  destruct (Prim2SF x) as [s | s | | s m ex]; try discriminate Hfin.
  - destruct s; reflexivity.
  - unfold SF64sub, SFsub. rewrite Z.sub_diag. reflexivity.
Qed.

(** No double divided by the positive zero is finite. *)
Lemma div_zero_not_finite (y : Real) :
  is_finite_double (y / 0)%float = false.
Proof.
  unfold is_finite_double. rewrite div_spec.
  replace (Prim2SF 0%float) with (S754_zero false) by reflexivity.
  destruct (Prim2SF y) as [s | s | | s m ex]; reflexivity.
Qed.

(** X5.  When the lattice prices the two outer nodes of time 0 at the same
    finite number, a call that returns has stored a delta and a gamma that
    are each an infinity or a NaN: the engine divides by the zero distance
    without a check. *)
Theorem coinciding_outer_nodes_not_finite
    (T : FlatProcess -> Time -> Size -> Real -> Tree)
    (dF : Rate -> Time -> Size -> nat -> Real)
    (th : GeneralizedBlackScholesProcess -> Real -> Real -> Real -> Real)
    (e : Engine) (a : Arguments) (st st' : EngineState)
    (pv : PlainVanillaPayoff) :
  calculate T dF th e a st = (Ok tt, st') ->
  payoff a = Plain pv ->
  lat_underlying (engine_lattice T dF e a pv) 0 2
  = lat_underlying (engine_lattice T dF e a pv) 0 0 ->
  is_finite_double (lat_underlying (engine_lattice T dF e a pv) 0 0) = true ->
  is_finite_double (delta (results_ st')) = false /\
  is_finite_double (gamma (results_ st')) = false.
Proof.
  intros Hc Hp Heq Hfin.
  destruct (calculate_ok_inv _ _ _ _ _ _ _ Hc)
    as (pv' & Hp' & _ & _ & Hst).
  rewrite Hp in Hp'. inversion Hp'; subst pv'; clear Hp'.
  cbv zeta in Hst. rewrite Hst. cbn [results_ delta gamma].
  rewrite Heq, (sub_self_zero _ Hfin).
  replace (0 / 2)%float with 0%float by reflexivity.
  split; apply div_zero_not_finite.
Qed.

(** ** Flattening *)

Lemma same_flat_view_bs (e1 e2 : Engine) (a : Arguments) :
  same_flat_view e1 e2 a ->
  engine_bs e1 a = engine_bs e2 a /\
  engine_maturity e1 a = engine_maturity e2 a /\
  spot e1 = spot e2.
Proof.
  intros (Hq & _ & Hrf & Hdiv & Hvdc & Hcal & Href & Hr & Hqq & Hv).
  unfold engine_bs, engine_maturity, spot, flat_process.
  rewrite Hq, Hrf, Hdiv, Hvdc, Hcal, Href, Hr, Hqq, Hv.
  repeat split.
Qed.

(** X6.  The engine sees the market only through the quote, the zero rates
    at the last exercise date, the Black volatility at that date and the
    spot, and the conventions of the curves: two engines that agree on
    these build the same lattice objects, return or throw alike, and store
    the same value, delta and gamma, however their curves differ
    elsewhere. *)
Theorem flat_view_decides
    (T : FlatProcess -> Time -> Size -> Real -> Tree)
    (dF : Rate -> Time -> Size -> nat -> Real)
    (th : GeneralizedBlackScholesProcess -> Real -> Real -> Real -> Real)
    (e1 e2 : Engine) (a : Arguments) (st : EngineState) :
  same_flat_view e1 e2 a ->
  fst (calculate T dF th e1 a st) = fst (calculate T dF th e2 a st) /\
  trace (snd (calculate T dF th e1 a st))
  = trace (snd (calculate T dF th e2 a st)) /\
  value (results_ (snd (calculate T dF th e1 a st)))
  = value (results_ (snd (calculate T dF th e2 a st))) /\
  delta (results_ (snd (calculate T dF th e1 a st)))
  = delta (results_ (snd (calculate T dF th e2 a st))) /\
  gamma (results_ (snd (calculate T dF th e1 a st)))
  = gamma (results_ (snd (calculate T dF th e2 a st))).
Proof.
  intros Hview.
  destruct (same_flat_view_bs _ _ _ Hview) as (Hbs & Hmat & Hspot).
  destruct Hview as (_ & Hn & _ & _ & _ & _ & _ & Hr & _ & _).
  assert (Hlat : forall pv,
             engine_lattice T dF e1 a pv = engine_lattice T dF e2 a pv).
  { intros pv. unfold engine_lattice. now rewrite Hbs, Hmat, Hn, Hr. }
  assert (Hval : forall pv,
             engine_values T dF e1 a pv = engine_values T dF e2 a pv).
  { intros pv. unfold engine_values. now rewrite Hlat, Hmat, Hn. }
  assert (Hevs : forall pv, lattice_events e1 a pv = lattice_events e2 a pv).
  { intros pv. unfold lattice_events. now rewrite Hbs, Hmat, Hn, Hr. }
  rewrite !calculate_unfold, Hspot.
  destruct (0 <? spot e2)%float; [| repeat split].
  destruct (dynamic_pointer_cast (payoff a)) as [pv|]; [| repeat split].
  cbv zeta. rewrite ?Hval, ?Hlat, ?Hevs.
  destruct (Nat.eqb _ 3); cbn [fst snd results_ trace value delta gamma];
    repeat split.
Qed.

(** ** A spot that is not a number *)

(** A double that does not compare equal to itself is the NaN. *)
Lemma is_nan_Prim2SF (x : Real) :
  is_nan x = true -> Prim2SF x = S754_nan.
Proof.
  unfold is_nan. rewrite FloatAxioms.eqb_spec. unfold SFeqb, SFcompare.
  destruct (Prim2SF x) as [s | s | | s m ex]; try reflexivity.
  - discriminate.
  - destruct s; discriminate.
  - rewrite Z.compare_refl.
    change (Pos.compare_cont Eq m m) with (Pos.compare m m).
    rewrite Pos.compare_refl. destruct s; discriminate.
Qed.

(** X7.  A call whose sampled spot is a NaN throws the spot precondition,
    as for a spot that is at most zero, and leaves the state as it found
    it. *)
Theorem nan_spot_rejected
    (T : FlatProcess -> Time -> Size -> Real -> Tree)
    (dF : Rate -> Time -> Size -> nat -> Real)
    (th : GeneralizedBlackScholesProcess -> Real -> Real -> Real -> Real)
    (e : Engine) (a : Arguments) (st : EngineState) :
  is_nan (spot e) = true ->
  calculate T dF th e a st
  = (Throw (mkError Require "negative or null underlying given"), st).
Proof.
  intros Hnan. apply not_positive_spot_rejected.
  rewrite FloatAxioms.ltb_spec, (is_nan_Prim2SF _ Hnan).
  unfold SFltb, SFcompare.
  destruct (Prim2SF 0%float); reflexivity.
Qed.

(** ** Instances of the further properties *)

(** The call on the tree rooted at time 0 throws the 3-node expectation
    with the five steps of lattice work traced and no theta evaluated. *)
Lemma failure_points_rooted :
  rooted_run
  = (Throw (mkError Ensure "Expect 3 nodes in grid at 0 step"),
     snd rooted_run) /\
  (err_check (mkError Ensure "Expect 3 nodes in grid at 0 step") = Require ->
   snd rooted_run = initial_state) /\
  (err_check (mkError Ensure "Expect 3 nodes in grid at 0 step") = Ensure ->
   (0 <? spot (sample_engine 100 2))%float = true /\
   exists pv,
     payoff sample_arguments = Plain pv /\
     List.length (engine_values (rootedTree 2 0.5 0.5) sample_discount
                                (sample_engine 100 2) sample_arguments pv)
     <> 3 /\
     trace (snd rooted_run)
     = trace initial_state
       ++ lattice_events (sample_engine 100 2) sample_arguments pv) /\
  (forall v d g,
      In (EvTheta v d g) (trace (snd rooted_run)) ->
      In (EvTheta v d g) (trace initial_state)).
Proof.
  split.
  - vm_compute. reflexivity.
  - apply (failure_points (rootedTree 2 0.5 0.5) sample_discount sample_theta
             (sample_engine 100 2) sample_arguments initial_state
             (snd rooted_run)).
    vm_compute. reflexivity.
Defined.

(** On the tree whose nodes all sit at the spot the call returns, with a
    delta and a gamma that are not finite. *)
Lemma coinciding_outer_nodes_sample :
  degenerate_run = (Ok tt, snd degenerate_run) /\
  is_finite_double (delta (results_ (snd degenerate_run))) = false /\
  is_finite_double (gamma (results_ (snd degenerate_run))) = false.
Proof.
  split.
  - vm_compute. reflexivity.
  - apply (coinciding_outer_nodes_not_finite
             (earlyRootTree 1 1 0.5) sample_discount sample_theta
             (sample_engine 100 2) sample_arguments initial_state
             (snd degenerate_run) (sample_call 96)).
    + vm_compute. reflexivity.
    + reflexivity.
    + vm_compute. reflexivity.
    + vm_compute. reflexivity.
Defined.

(** Curves that move away from the last exercise date price as the flat
    sample curves do. *)
Lemma flat_view_decides_sample :
  same_flat_view (sample_engine 100 2)
                 (mkEngine (sample_moving_process 100) 2) sample_arguments /\
  fst sample_run
  = fst (calculate (earlyRootTree 2 0.5 0.5) sample_discount sample_theta
                   (mkEngine (sample_moving_process 100) 2) sample_arguments
                   initial_state) /\
  trace (snd sample_run)
  = trace (snd (calculate (earlyRootTree 2 0.5 0.5) sample_discount
                          sample_theta
                          (mkEngine (sample_moving_process 100) 2)
                          sample_arguments initial_state)) /\
  value (results_ (snd sample_run))
  = value (results_ (snd (calculate (earlyRootTree 2 0.5 0.5) sample_discount
                                    sample_theta
                                    (mkEngine (sample_moving_process 100) 2)
                                    sample_arguments initial_state))) /\
  delta (results_ (snd sample_run))
  = delta (results_ (snd (calculate (earlyRootTree 2 0.5 0.5) sample_discount
                                    sample_theta
                                    (mkEngine (sample_moving_process 100) 2)
                                    sample_arguments initial_state))) /\
  gamma (results_ (snd sample_run))
  = gamma (results_ (snd (calculate (earlyRootTree 2 0.5 0.5) sample_discount
                                    sample_theta
                                    (mkEngine (sample_moving_process 100) 2)
                                    sample_arguments initial_state))).
Proof.
  assert (Hview : same_flat_view (sample_engine 100 2)
                                 (mkEngine (sample_moving_process 100) 2)
                                 sample_arguments)
    by (repeat split).
  split.
  - exact Hview.
  - exact (flat_view_decides (earlyRootTree 2 0.5 0.5) sample_discount
             sample_theta (sample_engine 100 2)
             (mkEngine (sample_moving_process 100) 2) sample_arguments
             initial_state Hview).
Defined.

(** A NaN quote is refused. *)
Lemma nan_spot_rejected_sample :
  is_nan (spot (sample_engine nan 2)) = true /\
  calculate (earlyRootTree 2 0.5 0.5) sample_discount sample_theta
            (sample_engine nan 2) sample_arguments initial_state
  = (Throw (mkError Require "negative or null underlying given"),
     initial_state).
Proof.
  split.
  - reflexivity.
  - apply (nan_spot_rejected (earlyRootTree 2 0.5 0.5) sample_discount
             sample_theta (sample_engine nan 2) sample_arguments
             initial_state).
    reflexivity.
Defined.

(** A second call, started from where the sample call ended, returns and
    stores what the first did. *)
Lemma results_independent_of_state_sample :
  fst sample_run
  = fst (calculate (earlyRootTree 2 0.5 0.5) sample_discount sample_theta
                   (sample_engine 100 2) sample_arguments (snd sample_run)) /\
  (fst sample_run = Ok tt ->
   results_ (snd sample_run)
   = results_ (snd (calculate (earlyRootTree 2 0.5 0.5) sample_discount
                              sample_theta (sample_engine 100 2)
                              sample_arguments (snd sample_run)))).
Proof.
  exact (results_independent_of_state (earlyRootTree 2 0.5 0.5)
           sample_discount sample_theta (sample_engine 100 2)
           sample_arguments initial_state (snd sample_run)).
Defined.
